(** * up_transport_zenoh.zenohutils: key mapping, message classification,
      priority mapping and the attribute attachment codec

    A shallow embedding of [src/up_transport_zenoh/zenohutils.py].
    Python integers are [N] (every number the module handles is a
    protobuf [uint32] field or a byte count), [bytes] objects are lists of
    [Byte.byte], [str] objects are [string], and a raised exception is the
    left injection of a [sum]. *)

From Stdlib Require Import NArith List String Ascii Bool Lia.
From Stdlib Require Import Decimal DecimalString.
From Stdlib Require Import Strings.Byte Hexadecimal HexadecimalN HexadecimalFacts.
From Stdlib Require HexadecimalString.
From ExtLib Require Import Structures.Monad Structures.MonadExc.
From ExtLib Require Import Data.Monads.EitherMonad.
Import ListNotations.
Import MonadNotation.

#[local] Open Scope string_scope.
#[local] Open Scope N_scope.
#[local] Open Scope monad_scope.

(** ** The fragment of Python the module relies on *)

Module Python.

Definition bytes := list byte.

(** [range(start, stop)] with the default step 1. *)
Record range := { start : N; stop : N }.

(** [x in range(start, stop)] *)
Definition range_contains (x : N) (r : range) : bool :=
  (start r <=? x) && (x <? stop r).

(** The digits of [format(n, "X")]: upper case, most significant first. *)
Fixpoint string_of_hex_uint_upper (d : Hexadecimal.uint) : string :=
  match d with
  | Nil => EmptyString
  | D0 d => String "0" (string_of_hex_uint_upper d)
  | D1 d => String "1" (string_of_hex_uint_upper d)
  | D2 d => String "2" (string_of_hex_uint_upper d)
  | D3 d => String "3" (string_of_hex_uint_upper d)
  | D4 d => String "4" (string_of_hex_uint_upper d)
  | D5 d => String "5" (string_of_hex_uint_upper d)
  | D6 d => String "6" (string_of_hex_uint_upper d)
  | D7 d => String "7" (string_of_hex_uint_upper d)
  | D8 d => String "8" (string_of_hex_uint_upper d)
  | D9 d => String "9" (string_of_hex_uint_upper d)
  | Da d => String "A" (string_of_hex_uint_upper d)
  | Db d => String "B" (string_of_hex_uint_upper d)
  | Dc d => String "C" (string_of_hex_uint_upper d)
  | Dd d => String "D" (string_of_hex_uint_upper d)
  | De d => String "E" (string_of_hex_uint_upper d)
  | Df d => String "F" (string_of_hex_uint_upper d)
  end.

(** [f"{n:X}"] *)
Definition format_X (n : N) : string :=
  string_of_hex_uint_upper (N.to_hex_uint n).

(** [f"{n}"] for an [int] *)
Definition format_d (n : N) : string :=
  NilZero.string_of_uint (N.to_uint n).

(** Reading an upper-case hexadecimal numeral back, the way
    [int(s, 16)] does on the strings [format_X] produces. *)
Definition hex_uint_of_char_upper (a : ascii) (d : option Hexadecimal.uint)
  : option Hexadecimal.uint :=
  match d with
  | None => None
  | Some d =>
      match a with
      | "0" => Some (D0 d) | "1" => Some (D1 d) | "2" => Some (D2 d)
      | "3" => Some (D3 d) | "4" => Some (D4 d) | "5" => Some (D5 d)
      | "6" => Some (D6 d) | "7" => Some (D7 d) | "8" => Some (D8 d)
      | "9" => Some (D9 d) | "A" => Some (Da d) | "B" => Some (Db d)
      | "C" => Some (Dc d) | "D" => Some (Dd d) | "E" => Some (De d)
      | "F" => Some (Df d)
      | _ => None
      end
  end%char.

Fixpoint hex_uint_of_string_upper (s : string) : option Hexadecimal.uint :=
  match s with
  | EmptyString => Some Nil
  | String a s => hex_uint_of_char_upper a (hex_uint_of_string_upper s)
  end.

Definition int_of_upper_hex (s : string) : option N :=
  match s with
  | EmptyString => None
  | _ => option_map N.of_hex_uint (hex_uint_of_string_upper s)
  end.

(** [int.from_bytes(b, byteorder="big")] *)
Definition int_from_bytes_big (b : bytes) : N :=
  fold_left (fun acc x => 256 * acc + Byte.to_N x) b 0.

Definition byte_of_N (n : N) : byte :=
  match Byte.of_N n with
  | Some b => b
  | None => x00
  end.

Fixpoint little_endian_digits (n : N) (length : nat) : bytes :=
  match length with
  | O => []
  | S length' => byte_of_N (n mod 256) :: little_endian_digits (n / 256) length'
  end.

(** Exceptions.  A built-in exception carries the text [str(e)] gives;
    a [UStatusError] carries its status. *)
Inductive UCode := INVALID_ARGUMENT | INTERNAL.

Record UStatus := { code : UCode; message : string }.

Inductive Exception :=
| UStatusError (status : UStatus)
| IndexError (text : string)
| KeyError (text : string)
| OverflowError (text : string)
| DecodeError (text : string)
| ZError (text : string).

(** A computation either raises ([inl]) or returns ([inr]). *)
Definition result (A : Type) : Type := (Exception + A)%type.

#[export] Instance Monad_result : Monad result := Monad_either Exception.
#[export] Instance MonadExc_result : MonadExc Exception result :=
  Exception_either Exception.

(** [n.to_bytes(length, byteorder="little")] for [n >= 0] *)
Definition int_to_bytes_little (n : N) (length : nat) : result bytes :=
  if n <? 256 ^ N.of_nat length
  then ret (little_endian_digits n length)
  else raise (OverflowError "int too big to convert").

(** [l[i]] on a list *)
Definition list_getitem {A} (l : list A) (i : nat) : result A :=
  match nth_error l i with
  | Some x => ret x
  | None => raise (IndexError "list index out of range")
  end.

(** [d[k]] on a dict written as a literal: the entries in source order. *)
Fixpoint dict_getitem {K V} (eqb : K -> K -> bool) (repr : K -> string)
    (d : list (K * V)) (k : K) : result V :=
  match d with
  | [] => raise (KeyError (repr k))
  | (k', v) :: d' => if eqb k' k then ret v else dict_getitem eqb repr d' k
  end.

(** [not b] for a [bytes] object *)
Definition bytes_is_empty (b : bytes) : bool :=
  match b with
  | [] => true
  | _ :: _ => false
  end.

(** [width] characters ["0"] *)
Fixpoint zeros (width : nat) : string :=
  match width with
  | O => EmptyString
  | S width' => String "0" (zeros width')
  end.

(** [f"{c:02x}"]: lower-case digits, filled with zeros up to two
    characters. *)
Definition format_02x (c : N) : string :=
  let digits := HexadecimalString.NilZero.string_of_uint (N.to_hex_uint c) in
  zeros (2 - String.length digits) ++ digits.

(** The value of one lower-case hexadecimal digit, from its character
    code: [0-9] are the codes 48 to 57, [a-f] the codes 97 to 102. *)
Definition hex_digit_value (a : ascii) : option N :=
  let code := N_of_ascii a in
  if (48 <=? code) && (code <=? 57) then Some (code - 48)
  else if (97 <=? code) && (code <=? 102) then Some (code - 87)
  else None.

(** [bytes.fromhex(s)] on a string of lower-case digit pairs. *)
Fixpoint bytes_fromhex (s : string) : option bytes :=
  match s with
  | EmptyString => Some []
  | String _ EmptyString => None
  | String h (String l rest) =>
      match hex_digit_value h, hex_digit_value l, bytes_fromhex rest with
      | Some vh, Some vl, Some tail => Some (byte_of_N (16 * vh + vl) :: tail)
      | _, _, _ => None
      end
  end.

End Python.
Import Python.

(** ** External collaborators *)

(** [uprotocol.v1.uri_pb2.UUri]: a proto3 message with four scalar fields. *)
Record UUri := {
  authority_name : string;
  ue_id : N;
  ue_version_major : N;
  resource_id : N
}.

(** [UUri()]: every field at its proto3 default. *)
Definition UUri_default : UUri :=
  {| authority_name := ""; ue_id := 0; ue_version_major := 0; resource_id := 0 |}.

(** Message equality ([==]) compares field by field. *)
Definition UUri_eqb (a b : UUri) : bool :=
  String.eqb (authority_name a) (authority_name b)
  && (ue_id a =? ue_id b)
  && (ue_version_major a =? ue_version_major b)
  && (resource_id a =? resource_id b).

(** The wildcard sentinels of [uprotocol.uri.factory.uri_factory.UriFactory];
    the class is not part of this module, so its constants are parameters. *)
Class UriFactory := {
  WILDCARD_ENTITY_ID : N;
  WILDCARD_ENTITY_VERSION : N;
  WILDCARD_RESOURCE_ID : N
}.

(** The values the table in the docstring of [get_listener_message_type]
    uses ([FFFF] for the resource wildcard). *)
Definition up_python_UriFactory : UriFactory :=
  {| WILDCARD_ENTITY_ID := 0xFFFF;
     WILDCARD_ENTITY_VERSION := 0xFF;
     WILDCARD_RESOURCE_ID := 0xFFFF |}.

(** [uprotocol.v1.uattributes_pb2.UPriority] and [zenoh.Priority]: the
    enumerations the priority table relates. *)
Inductive UPriority :=
| UPRIORITY_UNSPECIFIED
| UPRIORITY_CS0 | UPRIORITY_CS1 | UPRIORITY_CS2 | UPRIORITY_CS3
| UPRIORITY_CS4 | UPRIORITY_CS5 | UPRIORITY_CS6.

Inductive Priority :=
| REAL_TIME | INTERACTIVE_HIGH | INTERACTIVE_LOW
| DATA_HIGH | DATA | DATA_LOW | BACKGROUND.

(** The numbers of the enumeration, as [uattributes.proto] assigns them. *)
Definition UPriority_number (p : UPriority) : N :=
  match p with
  | UPRIORITY_UNSPECIFIED => 0
  | UPRIORITY_CS0 => 1 | UPRIORITY_CS1 => 2 | UPRIORITY_CS2 => 3
  | UPRIORITY_CS3 => 4 | UPRIORITY_CS4 => 5 | UPRIORITY_CS5 => 6
  | UPRIORITY_CS6 => 7
  end.

Definition UPriority_eqb (a b : UPriority) : bool :=
  UPriority_number a =? UPriority_number b.

Definition UPriority_repr (p : UPriority) : string :=
  format_d (UPriority_number p).

(** [UAttributes]: a protobuf message type with its binary serializer and
    parser.  [ParseFromString] is called on a fresh [UAttributes()], so it is
    a function of the bytes alone. *)
Class ProtoMessage (UAttributes : Type) := {
  SerializeToString : UAttributes -> bytes;
  ParseFromString : bytes -> result UAttributes
}.

(** [zenoh.ZBytes]: [attachment.deserialize(list)] followed by [bytes(...)]
    on the elements gives the chunks of the buffer, or raises. *)
Class ZBytesLike (ZBytes : Type) := {
  deserialize_list : ZBytes -> result (list bytes)
}.

(** [str(e)] for a [UStatusError]: the class lives in
    [uprotocol.communication.ustatuserror]. *)
Class UStatusErrorText := {
  UStatusError_str : UStatus -> string
}.

(** Modelled from the spec: [UStatusError.from_code_message] is not part of
    this module; the spec describes "a structured error/status type carrying
    a numeric code ... and a message string". *)
Definition from_code_message (c : UCode) (m : string) : Exception :=
  UStatusError {| code := c; message := m |}.

(** [str(e)] *)
Definition str {E : UStatusErrorText} (e : Exception) : string :=
  match e with
  | UStatusError st => UStatusError_str st
  | IndexError t | KeyError t | OverflowError t | DecodeError t | ZError t => t
  end.

(** [uri.authority], as [get_uauth_from_uuri] reads it: the attribute is
    not one of the four fields above, so reading it is a parameter (it may
    raise), and so are the truth value of what it gives and its serializer. *)
Class AuthorityField (UAuthority : Type) := {
  authority : UUri -> result UAuthority;
  authority_bool : UAuthority -> bool;
  authority_SerializeToString : UAuthority -> result bytes
}.

(** [class MessageFlag(IntFlag)] *)
Module MessageFlag.
Definition t := N.
Definition zero : t := 0.
Definition PUBLISH : t := 1.
Definition NOTIFICATION : t := 2.
Definition REQUEST : t := 4.
Definition RESPONSE : t := 8.
(** [k in flag] for a single member [k] *)
Definition contains (flag k : t) : bool := N.land flag k =? k.
End MessageFlag.

(** ** ZenohUtils: key mapping *)

Module ZenohUtils.

Section KeyMapping.
Context {F : UriFactory}.

Definition uri_to_zenoh_key (authority_name0 : string) (uri : UUri) : string :=
  let authority :=
    if String.eqb (authority_name uri) "" then authority_name0
    else authority_name uri in
  let ue_id :=
    if ue_id uri =? WILDCARD_ENTITY_ID then "*" else format_X (ue_id uri) in
  let ue_version_major :=
    if ue_version_major uri =? WILDCARD_ENTITY_VERSION then "*"
    else format_X (ue_version_major uri) in
  let resource_id :=
    if resource_id uri =? WILDCARD_RESOURCE_ID then "*"
    else format_X (resource_id uri) in
  authority ++ "/" ++ ue_id ++ "/" ++ ue_version_major ++ "/" ++ resource_id.

(** [dst_uri] defaults to [None].  A protobuf message defines neither
    [__bool__] nor [__len__], so [dst_uri and ...] tests [dst_uri is not
    None] before comparing with the empty message. *)
Definition to_zenoh_key_string (authority_name0 : string) (src_uri : UUri)
    (dst_uri : option UUri) : string :=
  let src := uri_to_zenoh_key authority_name0 src_uri in
  let dst :=
    match dst_uri with
    | Some d =>
        if negb (UUri_eqb d UUri_default)
        then uri_to_zenoh_key authority_name0 d
        else "{}/{}/{}/{}"
    | None => "{}/{}/{}/{}"
    end in
  "up/" ++ src ++ "/" ++ dst.

End KeyMapping.

(** ** ZenohUtils: priority mapping *)

Definition mapping : list (UPriority * Priority) :=
  [ (UPRIORITY_CS0, BACKGROUND);
    (UPRIORITY_CS1, DATA_LOW);
    (UPRIORITY_CS2, DATA);
    (UPRIORITY_CS3, DATA_HIGH);
    (UPRIORITY_CS4, INTERACTIVE_LOW);
    (UPRIORITY_CS5, INTERACTIVE_HIGH);
    (UPRIORITY_CS6, REAL_TIME);
    (UPRIORITY_UNSPECIFIED, DATA_LOW) ].

Definition map_zenoh_priority (upriority : UPriority) : result Priority :=
  dict_getitem UPriority_eqb UPriority_repr mapping upriority.

(** ** ZenohUtils: message classification *)

Definition rpc_range : range := {| start := 1; stop := 0x7FFF |}.
Definition nonrpc_range : range := {| start := 0x8000; stop := 0xFFFE |}.

Section Classifier.
Context {F : UriFactory}.

(** [if sink_uuri:] is a test for [None]: a protobuf message is always
    truthy. *)
Definition get_listener_message_type (source_uuri : UUri)
    (sink_uuri : option UUri) : result MessageFlag.t :=
  let flag := MessageFlag.zero in
  let wildcard_resource_id := WILDCARD_RESOURCE_ID in
  let src_resource := resource_id source_uuri in
  let flag :=
    match sink_uuri with
    | Some sink =>
        let dst_resource := resource_id sink in
        let flag :=
          if (range_contains src_resource nonrpc_range && (dst_resource =? 0))
             || (range_contains src_resource nonrpc_range
                 && (dst_resource =? wildcard_resource_id))
             || ((src_resource =? wildcard_resource_id) && (dst_resource =? 0))
             || ((src_resource =? wildcard_resource_id)
                 && (dst_resource =? wildcard_resource_id))
          then N.lor flag MessageFlag.NOTIFICATION else flag in
        let flag :=
          if ((src_resource =? 0) && range_contains dst_resource rpc_range)
             || ((src_resource =? 0) && (dst_resource =? wildcard_resource_id))
             || ((src_resource =? wildcard_resource_id)
                 && range_contains dst_resource rpc_range)
             || ((src_resource =? wildcard_resource_id)
                 && (dst_resource =? wildcard_resource_id))
          then N.lor flag MessageFlag.REQUEST else flag in
        let flag :=
          if (range_contains src_resource rpc_range && (dst_resource =? 0))
             || (range_contains src_resource rpc_range
                 && (dst_resource =? wildcard_resource_id))
             || ((src_resource =? wildcard_resource_id) && (dst_resource =? 0))
             || ((src_resource =? wildcard_resource_id)
                 && (dst_resource =? wildcard_resource_id))
          then N.lor flag MessageFlag.RESPONSE else flag in
        let flag :=
          if (dst_resource =? wildcard_resource_id)
             && (range_contains src_resource nonrpc_range
                 || (src_resource =? wildcard_resource_id))
          then N.lor flag MessageFlag.PUBLISH else flag in
        flag
    | None =>
        if range_contains src_resource nonrpc_range
           || (src_resource =? wildcard_resource_id)
        then N.lor flag MessageFlag.PUBLISH else flag
    end in
  if flag =? MessageFlag.zero
  then raise (from_code_message INTERNAL
                "Wrong combination of source UUri and sink UUri")
  else ret flag.

End Classifier.

(** ** ZenohUtils: the attribute attachment codec *)

Definition UATTRIBUTE_VERSION : N := 1.

Section Attachment.
Context {UAttributes : Type} {M : ProtoMessage UAttributes}.
Context {ZBytes : Type} {Z : ZBytesLike ZBytes}.
Context {E : UStatusErrorText}.

Definition uattributes_to_attachment (uattributes : UAttributes)
  : result (list bytes) :=
  version_bytes <- int_to_bytes_little UATTRIBUTE_VERSION 1 ;;
  let uattributes_bytes := SerializeToString uattributes in
  let attachment_bytes := [version_bytes; uattributes_bytes] in
  ret attachment_bytes.

(** The body of the [try] block. *)
Definition attachment_to_uattributes_try (attachment : ZBytes)
  : result UAttributes :=
  attachment_bytes <- deserialize_list attachment ;;
  (if N.of_nat (List.length attachment_bytes) <? 1
   then raise (from_code_message INVALID_ARGUMENT
                 "Unable to get the UAttributes version")
   else ret tt) ;;
  chunk0 <- list_getitem attachment_bytes 0 ;;
  let version := int_from_bytes_big chunk0 in
  (if negb (version =? UATTRIBUTE_VERSION)
   then raise (from_code_message INVALID_ARGUMENT
                 ("UAttributes version is " ++ format_d version
                  ++ " (should be " ++ format_d UATTRIBUTE_VERSION ++ ")"))
   else ret tt) ;;
  uattributes_data <- list_getitem attachment_bytes 1 ;;
  (if bytes_is_empty uattributes_data
   then raise (from_code_message INVALID_ARGUMENT
                 "Unable to get the UAttributes")
   else ret tt) ;;
  uattributes <- ParseFromString uattributes_data ;;
  ret uattributes.

(** [except Exception as e]: every exception of the body, the
    [UStatusError]s it raises itself included, is wrapped again. *)
Definition attachment_to_uattributes (attachment : ZBytes)
  : result UAttributes :=
  catch (attachment_to_uattributes_try attachment)
    (fun e =>
       let msg := "Failed to convert Attachment to UAttributes: " ++ str e in
       raise (from_code_message INVALID_ARGUMENT msg)).

End Attachment.

(** ** ZenohUtils: the authority in micro form *)

Section MicroForm.
Context {UAuthority : Type} {A : AuthorityField UAuthority}.
Context {E : UStatusErrorText}.

(** The function returns a [str] or a [UStatus]; it raises nothing of its
    own.  [uri.authority] is read once by the [if], outside the [try], and
    once more inside it. *)
Definition get_uauth_from_uuri (uri : UUri) : result (string + UStatus) :=
  tested <- authority uri ;;
  if authority_bool tested then
    catch
      (read <- authority uri ;;
       authority_bytes <- authority_SerializeToString read ;;
       ret (inl (String.concat ""
                   (map (fun c => format_02x (Byte.to_N c)) authority_bytes))))
      (fun e =>
         let msg := "Unable to transform UAuthority into micro form: " ++ str e in
         ret (inr {| code := INVALID_ARGUMENT; message := msg |}))
  else
    let msg := "UAuthority is empty" in
    ret (inr {| code := INVALID_ARGUMENT; message := msg |}).

End MicroForm.

End ZenohUtils.

(** ** The rules as the specification words them *)

Module Spec.

Section Rules.
Context {F : UriFactory}.

(** [RPC = [1, 0x7FFE]] and [NONRPC = [0x8000, 0xFFFD]], both ends included. *)
Definition RPC (r : N) : bool := (1 <=? r) && (r <=? 0x7FFE).
Definition NONRPC (r : N) : bool := (0x8000 <=? r) && (r <=? 0xFFFD).

Definition WILDCARD (r : N) : bool := r =? WILDCARD_RESOURCE_ID.

Definition Notification (Rs Rd : N) : bool :=
  (NONRPC Rs || WILDCARD Rs) && ((Rd =? 0) || WILDCARD Rd).

Definition Request (Rs Rd : N) : bool :=
  ((Rs =? 0) || WILDCARD Rs) && (RPC Rd || WILDCARD Rd).

Definition Response (Rs Rd : N) : bool :=
  (RPC Rs || WILDCARD Rs) && ((Rd =? 0) || WILDCARD Rd).

Definition Publish (Rs Rd : N) : bool :=
  WILDCARD Rd && (NONRPC Rs || WILDCARD Rs).

End Rules.

End Spec.

(** The error the classifier raises when no kind applies. *)
Definition wrong_combination : Exception :=
  UStatusError {| code := INTERNAL;
                  message := "Wrong combination of source UUri and sink UUri" |}.

(** The flag value holding exactly the kinds whose test is [true]. *)
Definition flag_of (publish notification request response : bool) : MessageFlag.t :=
  N.lor (if publish then MessageFlag.PUBLISH else 0)
    (N.lor (if notification then MessageFlag.NOTIFICATION else 0)
       (N.lor (if request then MessageFlag.REQUEST else 0)
          (if response then MessageFlag.RESPONSE else 0))).

(** The key segment of one address, as the specification words it: a
    field is rendered either as the character [*] (when it is that field's
    wildcard) or as its upper-case hexadecimal numeral without padding. *)
Module KeySpec.

(** No padding: the only numeral that starts with the digit zero is ["0"]. *)
Definition unpadded (s : string) : Prop :=
  s = "0" \/ exists c rest, s = String c rest /\ c <> "0"%char.

Definition renders (wildcard value : N) (segment : string) : Prop :=
  if value =? wildcard then segment = "*"
  else int_of_upper_hex segment = Some value /\ unpadded segment.

Definition authority_segment (default_authority : string) (addr : UUri) : string :=
  if String.eqb (authority_name addr) "" then default_authority
  else authority_name addr.

End KeySpec.

(** ** An instance of the external collaborators

    A one-field fragment of the proto3 message [UAttributes]: the field
    [priority] (number 5, a varint).  proto3 leaves a field that holds its
    default value out of the serialized form, so [UAttributes()] serializes
    to the empty byte string.  A [ZBytes] buffer is the list of its chunks,
    and [str] of a [UStatusError] is the message of its status. *)
Module Fragment.

Record UAttributes := { priority : UPriority }.

Definition UAttributes_default : UAttributes :=
  {| priority := UPRIORITY_UNSPECIFIED |}.

Definition UPriority_of_number (n : N) : option UPriority :=
  match n with
  | 0 => Some UPRIORITY_UNSPECIFIED
  | 1 => Some UPRIORITY_CS0 | 2 => Some UPRIORITY_CS1 | 3 => Some UPRIORITY_CS2
  | 4 => Some UPRIORITY_CS3 | 5 => Some UPRIORITY_CS4 | 6 => Some UPRIORITY_CS5
  | 7 => Some UPRIORITY_CS6
  | _ => None
  end.

Definition serialize (a : UAttributes) : bytes :=
  match priority a with
  | UPRIORITY_UNSPECIFIED => []
  | p => [x28; byte_of_N (UPriority_number p)]
  end.

Definition parse (b : bytes) : result UAttributes :=
  match b with
  | [] => ret UAttributes_default
  | [tag; v] =>
      if Byte.eqb tag x28 then
        match UPriority_of_number (Byte.to_N v) with
        | Some p => ret {| priority := p |}
        | None => raise (DecodeError "Error parsing message")
        end
      else raise (DecodeError "Error parsing message")
  | _ => raise (DecodeError "Error parsing message")
  end.

#[export] Instance UAttributes_message : ProtoMessage UAttributes :=
  {| SerializeToString := serialize; ParseFromString := parse |}.

Definition ZBytes : Type := list bytes.

#[export] Instance ZBytes_chunks : ZBytesLike ZBytes :=
  {| deserialize_list := fun z => ret z |}.

#[export] Instance status_message_text : UStatusErrorText :=
  {| UStatusError_str := message |}.

End Fragment.

(** ** Outcomes of the attachment decoder *)

(** A computation that raised a [UStatusError] of the INVALID_ARGUMENT
    class. *)
Definition invalid_argument {A} (r : result A) : Prop :=
  exists msg,
    r = inl (UStatusError {| code := INVALID_ARGUMENT; message := msg |}).

(** What the [except] clause of [attachment_to_uattributes] raises for the
    exception [e] of the body. *)
Definition conversion_failure {E : UStatusErrorText} (e : Exception) : Exception :=
  UStatusError
    {| code := INVALID_ARGUMENT;
       message := "Failed to convert Attachment to UAttributes: " ++ str e |}.

(** A string without the separator of key segments. *)
Fixpoint slash_free (s : string) : Prop :=
  match s with
  | EmptyString => True
  | String c rest => c <> "/"%char /\ slash_free rest
  end.

(** An authority attribute for concrete runs: the authority is the name of
    the address as ASCII bytes, false when the name is empty. *)
Module NameAuthority.

Definition read (uri : UUri) : result string := ret (authority_name uri).

Definition truth (name : string) : bool := negb (String.eqb name "").

Definition serialize (name : string) : result bytes :=
  ret (map byte_of_ascii (list_ascii_of_string name)).

#[export] Instance name_authority : AuthorityField string :=
  {| authority := read;
     authority_bool := truth;
     authority_SerializeToString := serialize |}.

End NameAuthority.

(** * Properties *)

(** ** Message classification *)

Section ClassifierFacts.
Context {F : UriFactory}.

Import ZenohUtils.

Lemma rpc_range_spec (x : N) : range_contains x rpc_range = Spec.RPC x.
Proof.
  unfold range_contains, rpc_range, Spec.RPC; simpl.
  f_equal.
  destruct (N.ltb_spec x 0x7FFF), (N.leb_spec x 0x7FFE); trivial; lia.
Qed.

Lemma nonrpc_range_spec (x : N) : range_contains x nonrpc_range = Spec.NONRPC x.
Proof.
  unfold range_contains, nonrpc_range, Spec.NONRPC; simpl.
  f_equal.
  destruct (N.ltb_spec x 0xFFFE), (N.leb_spec x 0xFFFD); trivial; lia.
Qed.

(** The classifier in closed form, with a sink. *)
Lemma classify_with_sink (source sink : UUri) :
  let Rs := resource_id source in
  let Rd := resource_id sink in
  get_listener_message_type source (Some sink) =
    let flag := flag_of (Spec.Publish Rs Rd) (Spec.Notification Rs Rd)
                  (Spec.Request Rs Rd) (Spec.Response Rs Rd) in
    if flag =? 0 then inl wrong_combination else inr flag.
Proof.
  unfold get_listener_message_type, Spec.Publish, Spec.Notification,
    Spec.Request, Spec.Response, Spec.WILDCARD.
  cbv zeta.
  rewrite !rpc_range_spec, !nonrpc_range_spec.
  destruct (Spec.NONRPC (resource_id source)), (Spec.RPC (resource_id source)),
    (resource_id source =? WILDCARD_RESOURCE_ID), (resource_id source =? 0),
    (Spec.RPC (resource_id sink)),
    (resource_id sink =? WILDCARD_RESOURCE_ID), (resource_id sink =? 0);
    reflexivity.
Qed.

(** The classifier in closed form, without a sink. *)
Lemma classify_without_sink (source : UUri) :
  get_listener_message_type source None =
    if Spec.NONRPC (resource_id source) || Spec.WILDCARD (resource_id source)
    then inr MessageFlag.PUBLISH else inl wrong_combination.
Proof.
  unfold get_listener_message_type, Spec.WILDCARD.
  cbv zeta.
  rewrite nonrpc_range_spec.
  destruct (Spec.NONRPC (resource_id source)),
    (resource_id source =? WILDCARD_RESOURCE_ID); reflexivity.
Qed.

Lemma flag_of_contains (p n q r : bool) :
  MessageFlag.contains (flag_of p n q r) MessageFlag.PUBLISH = p
  /\ MessageFlag.contains (flag_of p n q r) MessageFlag.NOTIFICATION = n
  /\ MessageFlag.contains (flag_of p n q r) MessageFlag.REQUEST = q
  /\ MessageFlag.contains (flag_of p n q r) MessageFlag.RESPONSE = r
  /\ N.land (flag_of p n q r) 15 = flag_of p n q r
  /\ ((flag_of p n q r =? 0) = negb (p || n || q || r)).
Proof. destruct p, n, q, r; repeat split; reflexivity. Qed.

End ClassifierFacts.

Section ClassifierClaims.
Context {F : UriFactory}.

Import ZenohUtils.

(** C1.  With a destination supplied, the classifier returns exactly the
    kinds whose rule holds (Notification, Request, Response, Publish, each
    as the specification states it, and no other bit), and it raises the
    INTERNAL "wrong combination" error exactly when the four rules are all
    false. *)
Theorem classifier_with_destination (source sink : UUri) :
  let Rs := resource_id source in
  let Rd := resource_id sink in
  let outcome := get_listener_message_type source (Some sink) in
  (outcome = inl wrong_combination
   <-> Spec.Notification Rs Rd = false /\ Spec.Request Rs Rd = false
       /\ Spec.Response Rs Rd = false /\ Spec.Publish Rs Rd = false)
  /\ (outcome <> inl wrong_combination ->
      exists flag,
        outcome = inr flag
        /\ MessageFlag.contains flag MessageFlag.NOTIFICATION = Spec.Notification Rs Rd
        /\ MessageFlag.contains flag MessageFlag.REQUEST = Spec.Request Rs Rd
        /\ MessageFlag.contains flag MessageFlag.RESPONSE = Spec.Response Rs Rd
        /\ MessageFlag.contains flag MessageFlag.PUBLISH = Spec.Publish Rs Rd
        /\ N.land flag 15 = flag).
Proof.
  cbv zeta.
  rewrite classify_with_sink; cbv zeta.
  set (p := Spec.Publish _ _); set (n := Spec.Notification _ _).
  set (q := Spec.Request _ _); set (r := Spec.Response _ _).
  destruct (flag_of_contains p n q r) as (Hp & Hn & Hq & Hr & Hmask & Hzero).
  rewrite Hzero.
  destruct (p || n || q || r) eqn:Hany; simpl.
  - split.
    + split; [discriminate |].
      intros (Hn' & Hq' & Hr' & Hp').
      rewrite Hn', Hq', Hr', Hp' in Hany. discriminate.
    + intros _. exists (flag_of p n q r). auto 10.
  - split.
    + split; [| reflexivity].
      intros _. destruct p, n, q, r; try discriminate; auto.
    + intros H. now elim H.
Qed.

(** C2.  With no destination, the classifier returns the singleton
    [{Publish}] when the source resource id is in NONRPC or is the wildcard,
    and raises the "wrong combination" error otherwise. *)
Theorem classifier_without_destination (source : UUri) :
  let Rs := resource_id source in
  get_listener_message_type source None =
    if Spec.NONRPC Rs || (Rs =? WILDCARD_RESOURCE_ID)
    then inr MessageFlag.PUBLISH
    else inl wrong_combination.
Proof. cbv zeta. apply classify_without_sink. Qed.

(** C10.  With a destination supplied, a returned flag that contains
    Publish also contains Notification. *)
Theorem publish_implies_notification (source sink : UUri) (flag : MessageFlag.t) :
  get_listener_message_type source (Some sink) = inr flag ->
  MessageFlag.contains flag MessageFlag.PUBLISH = true ->
  MessageFlag.contains flag MessageFlag.NOTIFICATION = true.
Proof.
  rewrite classify_with_sink; cbv zeta.
  set (p := Spec.Publish _ _); set (n := Spec.Notification _ _).
  set (q := Spec.Request _ _); set (r := Spec.Response _ _).
  assert (Hpn : p = true -> n = true).
  { subst p n. unfold Spec.Publish, Spec.Notification.
    intros H. apply andb_prop in H as [Hd Hs].
    rewrite Hs, Hd. now rewrite orb_true_r. }
  destruct (flag_of_contains p n q r) as (Hp & Hn & _).
  destruct (flag_of p n q r =? 0); [discriminate |].
  intros [= <-]. rewrite Hp, Hn. exact Hpn.
Qed.

(** C7.  The ranges are RPC = [1, 0x7FFE] and NONRPC = [0x8000, 0xFFFD],
    both ends included; 0xFFFE is in neither, and (being no wildcard) a
    resource id 0xFFFE on the source side or on the destination side makes
    every rule false, whatever the other side is: classification fails. *)
Theorem resource_0xFFFE_matches_nothing :
  WILDCARD_RESOURCE_ID <> 0xFFFE ->
  (forall x, range_contains x rpc_range = true <-> 1 <= x <= 0x7FFE)
  /\ (forall x, range_contains x nonrpc_range = true <-> 0x8000 <= x <= 0xFFFD)
  /\ range_contains 0xFFFE rpc_range = false
  /\ range_contains 0xFFFE nonrpc_range = false
  /\ (forall source sink,
        resource_id source = 0xFFFE ->
        get_listener_message_type source sink = inl wrong_combination)
  /\ (forall source sink,
        resource_id sink = 0xFFFE ->
        get_listener_message_type source (Some sink) = inl wrong_combination).
Proof.
  intros Hw.
  assert (Hwb : (0xFFFE =? WILDCARD_RESOURCE_ID) = false)
    by (apply N.eqb_neq; congruence).
  split; [| split; [| split; [| split; [| split]]]].
  - intros x. unfold range_contains, rpc_range; simpl.
    rewrite andb_true_iff, N.leb_le, N.ltb_lt. lia.
  - intros x. unfold range_contains, nonrpc_range; simpl.
    rewrite andb_true_iff, N.leb_le, N.ltb_lt. lia.
  - reflexivity.
  - reflexivity.
  - intros source [sink |] Hs.
    + rewrite classify_with_sink; cbv zeta.
      unfold Spec.Publish, Spec.Notification, Spec.Request, Spec.Response,
        Spec.WILDCARD.
      rewrite Hs, Hwb. simpl.
      now rewrite !andb_false_r.
    + rewrite classify_without_sink. unfold Spec.WILDCARD.
      now rewrite Hs, Hwb.
  - intros source sink Hd.
    rewrite classify_with_sink; cbv zeta.
    unfold Spec.Publish, Spec.Notification, Spec.Request, Spec.Response,
      Spec.WILDCARD.
    rewrite Hd, Hwb. simpl.
    now rewrite !andb_false_r.
Qed.

End ClassifierClaims.

(** ** Priority mapping *)

(** C9.  The priority mapping is total on the eight values of [UPriority]
    (the dictionary lookup never raises) and is the table
    CS0 -> Background, CS1 -> DataLow, CS2 -> Data, CS3 -> DataHigh,
    CS4 -> InteractiveLow, CS5 -> InteractiveHigh, CS6 -> RealTime,
    Unspecified -> DataLow. *)
Theorem map_zenoh_priority_table (upriority : UPriority) :
  ZenohUtils.map_zenoh_priority upriority =
    inr match upriority with
        | UPRIORITY_CS0 => BACKGROUND
        | UPRIORITY_CS1 => DATA_LOW
        | UPRIORITY_CS2 => DATA
        | UPRIORITY_CS3 => DATA_HIGH
        | UPRIORITY_CS4 => INTERACTIVE_LOW
        | UPRIORITY_CS5 => INTERACTIVE_HIGH
        | UPRIORITY_CS6 => REAL_TIME
        | UPRIORITY_UNSPECIFIED => DATA_LOW
        end.
Proof. destruct upriority; reflexivity. Qed.

(** ** Upper-case hexadecimal numerals *)

Lemma hex_upper_read_back (d : Hexadecimal.uint) :
  hex_uint_of_string_upper (string_of_hex_uint_upper d) = Some d.
Proof. induction d; simpl; rewrite ?IHd; reflexivity. Qed.

Lemma hex_upper_nonempty (d : Hexadecimal.uint) :
  d <> Nil -> string_of_hex_uint_upper d <> EmptyString.
Proof. destruct d; simpl; congruence. Qed.

Lemma to_hex_uint_nonnil (n : N) : N.to_hex_uint n <> Nil.
Proof.
  destruct n as [| p]; simpl.
  - discriminate.
  - apply HexadecimalPos.Unsigned.to_uint_nonnil.
Qed.

(** Reading [format_X n] back gives [n]. *)
Lemma format_X_value (n : N) : int_of_upper_hex (format_X n) = Some n.
Proof.
  unfold int_of_upper_hex, format_X.
  destruct (string_of_hex_uint_upper (N.to_hex_uint n)) eqn:Hs.
  - exfalso. revert Hs. apply hex_upper_nonempty, to_hex_uint_nonnil.
  - rewrite <- Hs, hex_upper_read_back. simpl.
    now rewrite HexadecimalN.Unsigned.of_to.
Qed.

Lemma nzhead_no_leading_zero (d : Hexadecimal.uint) :
  match nzhead d with D0 _ => False | _ => True end.
Proof. induction d; simpl; trivial. Qed.

Lemma unorm_leading_digit (d : Hexadecimal.uint) :
  unorm d = D0 Nil \/ match unorm d with Nil | D0 _ => False | _ => True end.
Proof.
  unfold unorm. pose proof (nzhead_no_leading_zero d) as H.
  destruct (nzhead d); auto.
Qed.

(** [format_X n] carries no padding. *)
Lemma format_X_unpadded (n : N) : KeySpec.unpadded (format_X n).
Proof.
  unfold KeySpec.unpadded, format_X.
  assert (Hn : N.to_hex_uint n = unorm (N.to_hex_uint n)).
  { rewrite <- HexadecimalN.Unsigned.to_of.
    now rewrite HexadecimalN.Unsigned.of_to. }
  rewrite Hn.
  destruct (unorm_leading_digit (N.to_hex_uint n)) as [-> | H].
  - now left.
  - right. destruct (unorm (N.to_hex_uint n)); try contradiction;
      simpl; eexists _, _; (split; [reflexivity | discriminate]).
Qed.

Lemma format_X_renders (wildcard value : N) :
  KeySpec.renders wildcard value
    (if value =? wildcard then "*" else format_X value).
Proof.
  unfold KeySpec.renders.
  destruct (value =? wildcard); [reflexivity |].
  split; [apply format_X_value | apply format_X_unpadded].
Qed.

(** ** Key mapping *)

Section KeyMappingClaims.
Context {F : UriFactory}.

Import ZenohUtils.

(** C6.  The key segment of one address is
    authority/entity_id/entity_major_version/resource_id, where the
    authority is the address's own when it is not empty and the default one
    otherwise, and each numeric field is rendered as [*] when it equals its
    wildcard and as its unpadded upper-case hexadecimal numeral otherwise. *)
Theorem uri_to_zenoh_key_segments (default_authority : string) (addr : UUri) :
  exists entity version resource,
    uri_to_zenoh_key default_authority addr =
      KeySpec.authority_segment default_authority addr
        ++ "/" ++ entity ++ "/" ++ version ++ "/" ++ resource
    /\ KeySpec.renders WILDCARD_ENTITY_ID (ue_id addr) entity
    /\ KeySpec.renders WILDCARD_ENTITY_VERSION (ue_version_major addr) version
    /\ KeySpec.renders WILDCARD_RESOURCE_ID (resource_id addr) resource.
Proof.
  unfold uri_to_zenoh_key; cbv zeta.
  do 3 eexists.
  split; [reflexivity |].
  repeat split; apply format_X_renders.
Qed.

Lemma UUri_eqb_eq (a b : UUri) : UUri_eqb a b = true <-> a = b.
Proof.
  unfold UUri_eqb. rewrite !andb_true_iff, String.eqb_eq, !N.eqb_eq.
  destruct a, b; simpl. split.
  - intros [[[-> ->] ->] ->]. reflexivity.
  - intros [= -> -> -> ->]. auto.
Qed.

(** With a destination that is not the empty address, the destination
    segment is the key segment of that address. *)
Lemma to_zenoh_key_string_with_destination
    (default_authority : string) (src dst : UUri) :
  dst <> UUri_default ->
  to_zenoh_key_string default_authority src (Some dst) =
    "up/" ++ uri_to_zenoh_key default_authority src
      ++ "/" ++ uri_to_zenoh_key default_authority dst.
Proof.
  intros Hne. unfold to_zenoh_key_string.
  destruct (UUri_eqb dst UUri_default) eqn:He; [| reflexivity].
  apply UUri_eqb_eq in He. contradiction.
Qed.

(** C3, as amended.  When the destination is absent, or is the empty
    address [UUri()], the destination segment is the literal
    [{}/{}/{}/{}] and the key is "up/" + source segment + "/" + that
    literal. *)
Theorem to_zenoh_key_string_without_destination
    (default_authority : string) (src : UUri) (dst : option UUri) :
  dst = None \/ dst = Some UUri_default ->
  to_zenoh_key_string default_authority src dst =
    "up/" ++ uri_to_zenoh_key default_authority src ++ "/" ++ "{}/{}/{}/{}".
Proof. intros [-> | ->]; reflexivity. Qed.

End KeyMappingClaims.

(** ** The attribute attachment codec *)

(** Case analysis on what is known of the chunks of a buffer. *)
Ltac chunk_facts :=
  repeat match goal with
    | H : _ /\ _ |- _ => destruct H
    | H : _ \/ _ |- _ => destruct H
    | H : exists _, _ |- _ => destruct H
    | H : nth_error _ _ = _ |- _ => progress cbn in H
    | H : (List.length _ < _)%nat |- _ => progress cbn in H
    | H : Some _ = Some _ |- _ => injection H as H; subst
    | H : inr _ = inr _ |- _ => injection H as H; subst
    | H : inl _ = inl _ |- _ => injection H as H; subst
    end;
  try discriminate; try congruence; try lia.

Section AttachmentClaims.
Context {UAttributes : Type} {M : ProtoMessage UAttributes}.
Context {ZBytes : Type} {Z : ZBytesLike ZBytes}.
Context {E : UStatusErrorText}.

Import ZenohUtils.

Lemma encode_chunks (uattributes : UAttributes) :
  uattributes_to_attachment uattributes =
    inr [[x01]; SerializeToString uattributes].
Proof. reflexivity. Qed.

(** The decoder in closed form, on a buffer that deserializes. *)
Lemma decode_chunks (attachment : ZBytes) (chunks : list bytes) :
  deserialize_list attachment = inr chunks ->
  attachment_to_uattributes attachment =
    match chunks with
    | [] =>
        inl (conversion_failure
               (from_code_message INVALID_ARGUMENT
                  "Unable to get the UAttributes version"))
    | chunk0 :: rest =>
        if int_from_bytes_big chunk0 =? UATTRIBUTE_VERSION then
          match rest with
          | [] => inl (conversion_failure (IndexError "list index out of range"))
          | chunk1 :: _ =>
              if bytes_is_empty chunk1
              then inl (conversion_failure
                          (from_code_message INVALID_ARGUMENT
                             "Unable to get the UAttributes"))
              else match ParseFromString chunk1 with
                   | inl e => inl (conversion_failure e)
                   | inr uattributes => inr uattributes
                   end
          end
        else
          inl (conversion_failure
                 (from_code_message INVALID_ARGUMENT
                    ("UAttributes version is "
                     ++ format_d (int_from_bytes_big chunk0)
                     ++ " (should be " ++ format_d UATTRIBUTE_VERSION ++ ")")))
    end.
Proof.
  intros Hd.
  unfold attachment_to_uattributes, attachment_to_uattributes_try.
  rewrite Hd.
  destruct chunks as [| chunk0 rest]; [reflexivity |].
  cbn.
  replace (N.pos (Pos.of_succ_nat (List.length rest)) <? 1) with false
    by (symmetry; apply N.ltb_ge; lia).
  cbn.
  destruct (int_from_bytes_big chunk0 =? UATTRIBUTE_VERSION); cbn;
    [| reflexivity].
  destruct rest as [| chunk1 rest]; [reflexivity |].
  cbn.
  destruct chunk1 as [| b chunk1]; [reflexivity |].
  cbn.
  destruct (ParseFromString (b :: chunk1)); reflexivity.
Qed.

(** A buffer that does not deserialize is rejected as well. *)
Lemma decode_undeserializable (attachment : ZBytes) (e : Exception) :
  deserialize_list attachment = inl e ->
  attachment_to_uattributes attachment = inl (conversion_failure e).
Proof.
  intros Hd.
  unfold attachment_to_uattributes, attachment_to_uattributes_try.
  now rewrite Hd.
Qed.

Lemma conversion_failure_invalid {A} (e : Exception) :
  invalid_argument (A := A) (inl (conversion_failure e)).
Proof. unfold invalid_argument, conversion_failure. now eexists. Qed.

(** C8.  The encoder returns two chunks, in this order: one byte holding
    the version constant 1, then the serialized attributes. *)
Theorem uattributes_to_attachment_chunks (uattributes : UAttributes) :
  exists chunk0,
    uattributes_to_attachment uattributes =
      inr [chunk0; SerializeToString uattributes]
    /\ chunk0 = [x01]
    /\ List.length chunk0 = 1%nat
    /\ int_from_bytes_big chunk0 = UATTRIBUTE_VERSION.
Proof. exists [x01]. repeat split. Qed.

(** C4.  On a buffer that deserializes to [chunks], the decoder raises an
    INVALID_ARGUMENT error when there is no chunk, when the first chunk does
    not read as the version 1, when the second chunk is missing or empty,
    and when the second chunk does not parse (the message then wraps the
    text of the parse failure); it returns a value exactly when the version
    is 1 and the second chunk is non-empty and parses, and the value is the
    parsed one. *)
Theorem attachment_to_uattributes_outcomes
    (attachment : ZBytes) (chunks : list bytes) :
  deserialize_list attachment = inr chunks ->
  let outcome := attachment_to_uattributes attachment in
  ((List.length chunks < 1)%nat -> invalid_argument outcome)
  /\ (forall chunk0,
        nth_error chunks 0 = Some chunk0 ->
        int_from_bytes_big chunk0 <> UATTRIBUTE_VERSION ->
        invalid_argument outcome)
  /\ (nth_error chunks 1 = None \/ nth_error chunks 1 = Some [] ->
      invalid_argument outcome)
  /\ (forall chunk1 e,
        nth_error chunks 1 = Some chunk1 ->
        ParseFromString chunk1 = inl e ->
        invalid_argument outcome
        /\ (forall chunk0,
              nth_error chunks 0 = Some chunk0 ->
              int_from_bytes_big chunk0 = UATTRIBUTE_VERSION ->
              chunk1 <> [] ->
              outcome =
                inl (UStatusError
                       {| code := INVALID_ARGUMENT;
                          message :=
                            "Failed to convert Attachment to UAttributes: "
                            ++ str e |})))
  /\ (forall uattributes,
        outcome = inr uattributes
        <-> exists chunk0 chunk1,
              nth_error chunks 0 = Some chunk0
              /\ int_from_bytes_big chunk0 = UATTRIBUTE_VERSION
              /\ nth_error chunks 1 = Some chunk1
              /\ chunk1 <> []
              /\ ParseFromString chunk1 = inr uattributes).
Proof.
  intros Hd. cbv zeta.
  rewrite (decode_chunks _ _ Hd).
  destruct chunks as [| chunk0 rest].
  { (* no chunk at all *)
    repeat split; intros; chunk_facts; apply conversion_failure_invalid. }
  destruct (N.eqb_spec (int_from_bytes_big chunk0) UATTRIBUTE_VERSION)
    as [Hv | Hv].
  2: { (* a version other than 1 *)
    repeat split; intros; chunk_facts; apply conversion_failure_invalid. }
  destruct rest as [| chunk1 rest].
  { (* no second chunk *)
    repeat split; intros; chunk_facts; apply conversion_failure_invalid. }
  destruct chunk1 as [| b chunk1]; simpl bytes_is_empty; cbv iota.
  { (* an empty second chunk *)
    repeat split; intros; chunk_facts; apply conversion_failure_invalid. }
  destruct (ParseFromString (b :: chunk1)) as [e | parsed] eqn:Hp.
  - (* the second chunk does not parse *)
    repeat split; intros; chunk_facts;
      try apply conversion_failure_invalid.
    rewrite Hp in *. chunk_facts. reflexivity.
  - (* success *)
    repeat split; intros; chunk_facts.
    exists chunk0, (b :: chunk1). repeat split; trivial. discriminate.
Qed.

(** C5, as amended.  For an attributes value whose serialized form is not
    empty and parses back to the value, decoding a buffer that holds the
    chunks the encoder returned gives the value back. *)
Theorem attachment_round_trip (uattributes : UAttributes) (attachment : ZBytes) :
  deserialize_list attachment = uattributes_to_attachment uattributes ->
  ParseFromString (SerializeToString uattributes) = inr uattributes ->
  SerializeToString uattributes <> [] ->
  attachment_to_uattributes attachment = inr uattributes.
Proof.
  intros Hd Hp Hne.
  rewrite encode_chunks in Hd.
  rewrite (decode_chunks _ _ Hd).
  change (int_from_bytes_big [x01] =? UATTRIBUTE_VERSION) with true.
  cbv iota.
  destruct (SerializeToString uattributes) as [| b rest] eqn:Hs;
    [congruence |].
  simpl bytes_is_empty. cbv iota.
  now rewrite Hp.
Qed.

End AttachmentClaims.

(** ** The instance: concrete runs *)

#[local] Existing Instance Fragment.UAttributes_message.
#[local] Existing Instance Fragment.ZBytes_chunks.
#[local] Existing Instance Fragment.status_message_text.

Lemma fragment_parse_serialize (a : Fragment.UAttributes) :
  Fragment.parse (Fragment.serialize a) = inr a.
Proof. destruct a as [p]; destruct p; reflexivity. Qed.

Example classify_publish :
  ZenohUtils.get_listener_message_type (F := up_python_UriFactory)
    {| authority_name := ""; ue_id := 0x12; ue_version_major := 1;
       resource_id := 0x8001 |} None
  = inr MessageFlag.PUBLISH.
Proof. reflexivity. Qed.

Example classify_request :
  ZenohUtils.get_listener_message_type (F := up_python_UriFactory)
    {| authority_name := ""; ue_id := 0x12; ue_version_major := 1;
       resource_id := 0 |}
    (Some {| authority_name := ""; ue_id := 0x34; ue_version_major := 1;
             resource_id := 0x0042 |})
  = inr MessageFlag.REQUEST.
Proof. reflexivity. Qed.

Example classify_wildcards :
  ZenohUtils.get_listener_message_type (F := up_python_UriFactory)
    {| authority_name := ""; ue_id := 0x12; ue_version_major := 1;
       resource_id := 0xFFFF |}
    (Some {| authority_name := ""; ue_id := 0x34; ue_version_major := 1;
             resource_id := 0xFFFF |})
  = inr 15.
Proof. reflexivity. Qed.

Example key_segment_run :
  ZenohUtils.uri_to_zenoh_key (F := up_python_UriFactory) "host"
    {| authority_name := ""; ue_id := 0x12; ue_version_major := 0xFF;
       resource_id := 0x8001 |}
  = "host/12/*/8001".
Proof. reflexivity. Qed.

(** C3 as stated fails: without a destination the key ends in
    [{}/{}/{}/{}], not in four [*] segments. *)
Lemma destination_segment_is_not_wildcards :
  let src := {| authority_name := ""; ue_id := 0x10AB; ue_version_major := 3;
                resource_id := 0x80CD |} in
  ZenohUtils.to_zenoh_key_string (F := up_python_UriFactory)
    "192.168.1.100" src None
  = "up/192.168.1.100/10AB/3/80CD/{}/{}/{}/{}"
  /\ ZenohUtils.to_zenoh_key_string (F := up_python_UriFactory)
       "192.168.1.100" src None
     <> "up/"
        ++ ZenohUtils.uri_to_zenoh_key (F := up_python_UriFactory)
             "192.168.1.100" src
        ++ "/" ++ "*/*/*/*".
Proof. split; [reflexivity | discriminate]. Qed.

Lemma to_zenoh_key_string_without_destination_witness :
  ZenohUtils.to_zenoh_key_string (F := up_python_UriFactory) "192.168.1.100"
    {| authority_name := ""; ue_id := 0x10AB; ue_version_major := 3;
       resource_id := 0x80CD |}
    (Some UUri_default)
  = "up/192.168.1.100/10AB/3/80CD/{}/{}/{}/{}".
Proof.
  exact (@to_zenoh_key_string_without_destination up_python_UriFactory
           "192.168.1.100"
           {| authority_name := ""; ue_id := 0x10AB; ue_version_major := 3;
              resource_id := 0x80CD |}
           (Some UUri_default) (or_intror eq_refl)).
Defined.

Lemma publish_implies_notification_witness :
  ZenohUtils.get_listener_message_type (F := up_python_UriFactory)
    {| authority_name := ""; ue_id := 1; ue_version_major := 1;
       resource_id := 0x8001 |}
    (Some {| authority_name := ""; ue_id := 2; ue_version_major := 1;
             resource_id := 0xFFFF |})
  = inr 3
  /\ MessageFlag.contains 3 MessageFlag.PUBLISH = true
  /\ MessageFlag.contains 3 MessageFlag.NOTIFICATION = true.
Proof.
  split; [reflexivity | split; [reflexivity |]].
  exact (@publish_implies_notification up_python_UriFactory
           {| authority_name := ""; ue_id := 1; ue_version_major := 1;
              resource_id := 0x8001 |}
           {| authority_name := ""; ue_id := 2; ue_version_major := 1;
              resource_id := 0xFFFF |}
           3 eq_refl eq_refl).
Defined.

Lemma resource_0xFFFE_matches_nothing_witness :
  @WILDCARD_RESOURCE_ID up_python_UriFactory <> 0xFFFE
  /\ ZenohUtils.get_listener_message_type (F := up_python_UriFactory)
       {| authority_name := ""; ue_id := 1; ue_version_major := 1;
          resource_id := 0xFFFE |}
       (Some {| authority_name := ""; ue_id := 2; ue_version_major := 1;
                resource_id := 0xFFFF |})
     = inl wrong_combination
  /\ ZenohUtils.get_listener_message_type (F := up_python_UriFactory)
       {| authority_name := ""; ue_id := 1; ue_version_major := 1;
          resource_id := 0xFFFF |}
       (Some {| authority_name := ""; ue_id := 2; ue_version_major := 1;
                resource_id := 0xFFFE |})
     = inl wrong_combination.
Proof.
  assert (Hw : @WILDCARD_RESOURCE_ID up_python_UriFactory <> 0xFFFE)
    by discriminate.
  destruct (@resource_0xFFFE_matches_nothing up_python_UriFactory Hw)
    as (_ & _ & _ & _ & Hsrc & Hdst).
  split; [exact Hw | split].
  - apply Hsrc. reflexivity.
  - apply Hdst. reflexivity.
Defined.

(** A well-formed attachment decodes: version 1, then the priority CS3. *)
Lemma attachment_to_uattributes_outcomes_witness :
  ZenohUtils.attachment_to_uattributes (ZBytes := Fragment.ZBytes)
    [[x01]; [x28; x04]]
  = inr {| Fragment.priority := UPRIORITY_CS3 |}.
Proof.
  destruct (@attachment_to_uattributes_outcomes
              Fragment.UAttributes Fragment.UAttributes_message
              Fragment.ZBytes Fragment.ZBytes_chunks
              Fragment.status_message_text
              [[x01]; [x28; x04]] [[x01]; [x28; x04]] eq_refl)
    as (_ & _ & _ & _ & Hok).
  apply Hok. exists [x01], [x28; x04].
  repeat split. discriminate.
Defined.

(** C5 as stated fails: the empty attributes value serializes to no byte at
    all, and the decoder rejects an empty second chunk. *)
Lemma empty_attributes_do_not_round_trip :
  let a := Fragment.UAttributes_default in
  ParseFromString (SerializeToString a) = inr a
  /\ ZenohUtils.uattributes_to_attachment a = inr [[x01]; []]
  /\ ZenohUtils.attachment_to_uattributes (ZBytes := Fragment.ZBytes)
       [[x01]; []]
     = inl (UStatusError
              {| code := INVALID_ARGUMENT;
                 message := "Failed to convert Attachment to UAttributes: "
                            ++ "Unable to get the UAttributes" |})
  /\ ZenohUtils.attachment_to_uattributes (ZBytes := Fragment.ZBytes)
       [[x01]; []]
     <> inr a.
Proof. repeat split. discriminate. Qed.

Lemma attachment_round_trip_witness :
  ZenohUtils.attachment_to_uattributes (ZBytes := Fragment.ZBytes)
    [[x01]; [x28; x04]]
  = inr {| Fragment.priority := UPRIORITY_CS3 |}.
Proof.
  apply (@attachment_round_trip
           Fragment.UAttributes Fragment.UAttributes_message
           Fragment.ZBytes Fragment.ZBytes_chunks
           Fragment.status_message_text
           {| Fragment.priority := UPRIORITY_CS3 |} [[x01]; [x28; x04]]).
  - reflexivity.
  - reflexivity.
  - discriminate.
Defined.

(** * Further properties of the module *)

(** ** Message classification *)

Section ClassifierExtras.
Context {F : UriFactory}.

Import ZenohUtils.

(** X1.  When neither resource id is the wildcard, a successful
    classification with a sink names exactly one kind, and that kind is
    Notification, Request or Response, never Publish. *)
Theorem classifier_single_kind_without_wildcards
    (source sink : UUri) (flag : MessageFlag.t) :
  resource_id source <> WILDCARD_RESOURCE_ID ->
  resource_id sink <> WILDCARD_RESOURCE_ID ->
  get_listener_message_type source (Some sink) = inr flag ->
  flag = MessageFlag.NOTIFICATION \/ flag = MessageFlag.REQUEST
  \/ flag = MessageFlag.RESPONSE.
Proof.
  intros Hs Hd.
  rewrite classify_with_sink; cbv zeta.
  unfold Spec.Publish, Spec.Notification, Spec.Request, Spec.Response,
    Spec.WILDCARD, Spec.RPC, Spec.NONRPC.
  apply N.eqb_neq in Hs, Hd. rewrite Hs, Hd.
  destruct (N.leb_spec 1 (resource_id source)),
    (N.leb_spec (resource_id source) 0x7FFE),
    (N.leb_spec 0x8000 (resource_id source)),
    (N.leb_spec (resource_id source) 0xFFFD),
    (N.eqb_spec (resource_id source) 0);
    try lia;
    destruct (N.leb_spec 1 (resource_id sink)),
      (N.leb_spec (resource_id sink) 0x7FFE),
      (N.eqb_spec (resource_id sink) 0);
    try lia; simpl; intros [= <-]; auto.
Qed.

(** X2.  The rows of the classification table that involve the wildcard,
    for a wildcard that is neither 0 nor in a range.  A wildcard source
    with sink 0 is Notification and Response; with a sink in RPC it is
    Request; with a sink in NONRPC nothing matches.  A wildcard sink with
    source 0 is Request, with a source in RPC Response, with a source in
    NONRPC Notification and Publish; wildcard against wildcard is all four
    kinds. *)
Theorem classifier_wildcard_rows (source sink : UUri) :
  WILDCARD_RESOURCE_ID <> 0 ->
  Spec.RPC WILDCARD_RESOURCE_ID = false ->
  Spec.NONRPC WILDCARD_RESOURCE_ID = false ->
  let Rs := resource_id source in
  let Rd := resource_id sink in
  let outcome := get_listener_message_type source (Some sink) in
  (Rs = WILDCARD_RESOURCE_ID -> Rd = 0 ->
   outcome = inr (N.lor MessageFlag.NOTIFICATION MessageFlag.RESPONSE))
  /\ (Rs = WILDCARD_RESOURCE_ID -> Spec.RPC Rd = true ->
      outcome = inr MessageFlag.REQUEST)
  /\ (Rs = WILDCARD_RESOURCE_ID -> Spec.NONRPC Rd = true ->
      outcome = inl wrong_combination)
  /\ (Rs = 0 -> Rd = WILDCARD_RESOURCE_ID ->
      outcome = inr MessageFlag.REQUEST)
  /\ (Spec.RPC Rs = true -> Rd = WILDCARD_RESOURCE_ID ->
      outcome = inr MessageFlag.RESPONSE)
  /\ (Spec.NONRPC Rs = true -> Rd = WILDCARD_RESOURCE_ID ->
      outcome = inr (N.lor MessageFlag.PUBLISH MessageFlag.NOTIFICATION))
  /\ (Rs = WILDCARD_RESOURCE_ID -> Rd = WILDCARD_RESOURCE_ID ->
      outcome = inr (N.lor MessageFlag.PUBLISH
                       (N.lor MessageFlag.NOTIFICATION
                          (N.lor MessageFlag.REQUEST MessageFlag.RESPONSE)))).
Proof.
  intros Hw0 Hwr Hwn. cbv zeta.
  rewrite classify_with_sink; cbv zeta.
  unfold Spec.Publish, Spec.Notification, Spec.Request, Spec.Response,
    Spec.WILDCARD.
  assert (Hw0b : (WILDCARD_RESOURCE_ID =? 0) = false) by now apply N.eqb_neq.
  assert (H0wb : (0 =? WILDCARD_RESOURCE_ID) = false)
    by (apply N.eqb_neq; congruence).
  assert (Hrange : forall x, Spec.RPC x = true -> Spec.NONRPC x = true -> False).
  { intros x. unfold Spec.RPC, Spec.NONRPC.
    rewrite !andb_true_iff, !N.leb_le. lia. }
  assert (Hneq : forall x, (Spec.RPC x = true \/ Spec.NONRPC x = true) ->
                           (x =? WILDCARD_RESOURCE_ID) = false
                           /\ (x =? 0) = false).
  { intros x Hx. split; apply N.eqb_neq; intros ->.
    - rewrite Hwr, Hwn in Hx. destruct Hx; discriminate.
    - destruct Hx; discriminate. }
  repeat split; intros H1 H2;
    try (destruct (Hneq _ (or_introl H1)) as [? ?]);
    try (destruct (Hneq _ (or_intror H1)) as [? ?]);
    try (destruct (Hneq _ (or_introl H2)) as [? ?]);
    try (destruct (Hneq _ (or_intror H2)) as [? ?]);
    repeat match goal with
      | H : _ = WILDCARD_RESOURCE_ID |- _ => rewrite H
      | H : _ = 0 |- _ => rewrite H
      | H : _ = true |- _ => rewrite H
      | H : _ = false |- _ => rewrite H
      end;
    rewrite ?N.eqb_refl, ?Hwr, ?Hwn, ?Hw0b, ?H0wb;
    repeat match goal with
      | |- context [Spec.RPC ?x] => destruct (Spec.RPC x) eqn:?
      | |- context [Spec.NONRPC ?x] => destruct (Spec.NONRPC x) eqn:?
      end;
    try reflexivity; exfalso; eauto.
Qed.

(** X3.  An empty sink is not an absent sink: for a source in NONRPC (that
    is not the wildcard, the wildcard not being 0) the key of the pair is
    the same with the empty address [UUri()] as with no sink at all, yet
    the classifier answers Publish without a sink and Notification with the
    empty one. *)
Theorem empty_sink_keyed_as_absent_classified_as_notification
    (default_authority : string) (source : UUri) :
  WILDCARD_RESOURCE_ID <> 0 ->
  resource_id source <> WILDCARD_RESOURCE_ID ->
  Spec.NONRPC (resource_id source) = true ->
  to_zenoh_key_string default_authority source (Some UUri_default)
    = to_zenoh_key_string default_authority source None
  /\ get_listener_message_type source None = inr MessageFlag.PUBLISH
  /\ get_listener_message_type source (Some UUri_default)
     = inr MessageFlag.NOTIFICATION.
Proof.
  intros Hw0 Hsw Hn.
  split; [reflexivity | split].
  - rewrite classify_without_sink, Hn. reflexivity.
  - rewrite classify_with_sink; cbv zeta.
    unfold Spec.Publish, Spec.Notification, Spec.Request, Spec.Response,
      Spec.WILDCARD.
    apply N.eqb_neq in Hsw. rewrite Hn, Hsw.
    assert (H0w : (0 =? WILDCARD_RESOURCE_ID) = false)
      by (apply N.eqb_neq; congruence).
    assert (Hr : Spec.RPC (resource_id source) = false).
    { revert Hn. unfold Spec.RPC, Spec.NONRPC.
      rewrite andb_true_iff, !N.leb_le. intros [H1 H2].
      apply andb_false_iff. right. apply N.leb_gt. lia. }
    assert (Hs0 : (resource_id source =? 0) = false).
    { revert Hn. unfold Spec.NONRPC.
      rewrite andb_true_iff, !N.leb_le. intros [H1 H2].
      apply N.eqb_neq. lia. }
    simpl resource_id. rewrite Hr, Hs0, H0w. reflexivity.
Qed.

End ClassifierExtras.

(** ** Key mapping: distinct addresses, distinct keys *)

Lemma string_app_assoc (a b c : string) : (a ++ b) ++ c = a ++ (b ++ c).
Proof. induction a; simpl; congruence. Qed.

Lemma slash_free_app_slash (a b : string) : ~ slash_free (a ++ "/" ++ b).
Proof.
  induction a; simpl.
  - intros [H _]. now apply H.
  - intros [_ H]. auto.
Qed.

(** Two strings that end in a segment without [/] agree on that segment and
    on what comes before it. *)
Lemma split_last_segment (s1 s2 r1 r2 : string) :
  slash_free r1 -> slash_free r2 ->
  s1 ++ "/" ++ r1 = s2 ++ "/" ++ r2 ->
  s1 = s2 /\ r1 = r2.
Proof.
  revert s2. induction s1 as [| c s1 IH]; intros [| c2 s2] H1 H2; simpl.
  - intros [= ->]. auto.
  - intros [= <- ->]. now elim (slash_free_app_slash s2 r2).
  - intros [= -> <-]. now elim (slash_free_app_slash s1 r1).
  - intros [= -> H]. destruct (IH _ H1 H2 H) as [-> ->]. auto.
Qed.

Lemma upper_hex_slash_free (d : Hexadecimal.uint) :
  slash_free (string_of_hex_uint_upper d).
Proof. induction d; simpl; auto; split; auto; discriminate. Qed.

Lemma field_segment_slash_free (wildcard value : N) :
  slash_free (if value =? wildcard then "*" else format_X value).
Proof.
  destruct (value =? wildcard).
  - simpl. split; [discriminate | exact I].
  - apply upper_hex_slash_free.
Qed.

Lemma format_X_not_star (n : N) : format_X n <> "*".
Proof.
  intros H. pose proof (format_X_value n) as Hv.
  rewrite H in Hv. discriminate.
Qed.

Lemma field_segment_inj (wildcard v1 v2 : N) :
  (if v1 =? wildcard then "*" else format_X v1)
  = (if v2 =? wildcard then "*" else format_X v2) ->
  v1 = v2.
Proof.
  destruct (N.eqb_spec v1 wildcard), (N.eqb_spec v2 wildcard); intros H.
  - congruence.
  - symmetry in H. now apply format_X_not_star in H.
  - now apply format_X_not_star in H.
  - pose proof (format_X_value v1) as H1.
    rewrite H, format_X_value in H1. congruence.
Qed.

Section KeyMappingExtras.
Context {F : UriFactory}.

Import ZenohUtils.

(** X4.  The key segment of an address determines the address up to the
    default authority: two addresses with the same key segment have the
    same entity id, major version and resource id, and the same authority
    once the default has been filled in, whatever characters the
    authorities hold. *)
Theorem uri_to_zenoh_key_injective
    (authority1 authority2 : string) (uri1 uri2 : UUri) :
  uri_to_zenoh_key authority1 uri1 = uri_to_zenoh_key authority2 uri2 ->
  KeySpec.authority_segment authority1 uri1
    = KeySpec.authority_segment authority2 uri2
  /\ ue_id uri1 = ue_id uri2
  /\ ue_version_major uri1 = ue_version_major uri2
  /\ resource_id uri1 = resource_id uri2.
Proof.
  unfold uri_to_zenoh_key; cbv zeta.
  fold (KeySpec.authority_segment authority1 uri1).
  fold (KeySpec.authority_segment authority2 uri2).
  set (a1 := KeySpec.authority_segment authority1 uri1).
  set (a2 := KeySpec.authority_segment authority2 uri2).
  set (e1 := if ue_id uri1 =? _ then _ else _).
  set (e2 := if ue_id uri2 =? _ then _ else _).
  set (v1 := if ue_version_major uri1 =? _ then _ else _).
  set (v2 := if ue_version_major uri2 =? _ then _ else _).
  set (r1 := if resource_id uri1 =? _ then _ else _).
  set (r2 := if resource_id uri2 =? _ then _ else _).
  intros H.
  assert (H3 : ((a1 ++ "/" ++ e1) ++ "/" ++ v1) ++ "/" ++ r1
               = ((a2 ++ "/" ++ e2) ++ "/" ++ v2) ++ "/" ++ r2).
  { rewrite !string_app_assoc. exact H. }
  apply split_last_segment in H3 as [H2 Hr];
    try apply field_segment_slash_free.
  apply split_last_segment in H2 as [H1 Hv];
    try apply field_segment_slash_free.
  apply split_last_segment in H1 as [Ha He];
    try apply field_segment_slash_free.
  repeat split.
  - exact Ha.
  - exact (field_segment_inj _ _ _ He).
  - exact (field_segment_inj _ _ _ Hv).
  - exact (field_segment_inj _ _ _ Hr).
Qed.

End KeyMappingExtras.

(** ** Priority mapping: which priorities are told apart *)

(** X5.  The priority mapping reaches each of the seven priorities of the
    fabric, and two priorities of the addressing scheme are mapped to the
    same one only when they are equal or are CS1 and Unspecified. *)
Theorem map_zenoh_priority_onto_and_collisions :
  (forall z : Priority,
      exists p, ZenohUtils.map_zenoh_priority p = inr z)
  /\ (forall p q : UPriority,
        ZenohUtils.map_zenoh_priority p = ZenohUtils.map_zenoh_priority q
        <-> p = q
            \/ (p = UPRIORITY_CS1 /\ q = UPRIORITY_UNSPECIFIED)
            \/ (p = UPRIORITY_UNSPECIFIED /\ q = UPRIORITY_CS1)).
Proof.
  split.
  - intros []; eexists;
      [ instantiate (1 := UPRIORITY_CS6) | instantiate (1 := UPRIORITY_CS5)
      | instantiate (1 := UPRIORITY_CS4) | instantiate (1 := UPRIORITY_CS3)
      | instantiate (1 := UPRIORITY_CS2) | instantiate (1 := UPRIORITY_CS1)
      | instantiate (1 := UPRIORITY_CS0) ]; reflexivity.
  - intros p q. split.
    + destruct p, q; intros H; try discriminate H; auto.
    + intros [-> | [[-> ->] | [-> ->]]]; reflexivity.
Qed.

(** ** The attachment codec: what the decoder accepts *)

Lemma int_from_bytes_acc_le (b : bytes) (acc : N) :
  acc <= fold_left (fun acc x => 256 * acc + Byte.to_N x) b acc.
Proof.
  revert acc. induction b as [| x b IH]; intros acc; cbn [fold_left].
  - lia.
  - specialize (IH (256 * acc + Byte.to_N x)). lia.
Qed.

Lemma byte_of_number (x : byte) (n : N) :
  Byte.to_N x = n -> Byte.of_N n = Some x.
Proof. intros <-. apply Byte.of_to_N. Qed.

(** The chunks that read as the version 1: zero bytes, then one byte 1. *)
Lemma version_chunk_shape (chunk : bytes) :
  int_from_bytes_big chunk = 1
  <-> exists n, chunk = (repeat x00 n ++ [x01])%list.
Proof.
  unfold int_from_bytes_big. split.
  - induction chunk as [| x chunk IH]; cbn [fold_left].
    + discriminate.
    + rewrite N.mul_0_r, N.add_0_l. intros H.
      pose proof (int_from_bytes_acc_le chunk (Byte.to_N x)) as Hle.
      destruct (N.eq_dec (Byte.to_N x) 0) as [H0 | H0].
      * rewrite H0 in H. destruct (IH H) as [n ->].
        apply byte_of_number in H0. injection H0 as <-.
        now exists (S n).
      * assert (H1 : Byte.to_N x = 1) by lia.
        apply byte_of_number in H1 as Hx. injection Hx as <-.
        exists O. cbn [repeat app]. f_equal.
        destruct chunk as [| y chunk]; [reflexivity |].
        cbn [fold_left] in H. rewrite H1 in H.
        pose proof (int_from_bytes_acc_le chunk (256 * 1 + Byte.to_N y)).
        lia.
  - intros [n ->]. induction n as [| n IH]; [reflexivity | exact IH].
Qed.

Section AttachmentExtras.
Context {UAttributes : Type} {M : ProtoMessage UAttributes}.
Context {ZBytes : Type} {Z : ZBytesLike ZBytes}.
Context {E : UStatusErrorText}.

Import ZenohUtils.

(** X6.  Whatever the buffer holds, the decoder either returns a value or
    raises a [UStatusError] of the INVALID_ARGUMENT class: no other
    exception leaves it, a failure to deserialize the buffer included. *)
Theorem attachment_to_uattributes_raises_only_invalid_argument
    (attachment : ZBytes) :
  (exists uattributes, attachment_to_uattributes attachment = inr uattributes)
  \/ invalid_argument (attachment_to_uattributes attachment).
Proof.
  unfold attachment_to_uattributes.
  destruct (attachment_to_uattributes_try attachment) as [e | a]; cbn.
  - right. apply conversion_failure_invalid.
  - left. now exists a.
Qed.

(** X7.  The decoder reads the first two chunks only: chunks after the
    second change neither the value it returns nor the error it raises. *)
Theorem attachment_to_uattributes_ignores_trailing_chunks
    (attachment attachment' : ZBytes) (chunk0 chunk1 : bytes)
    (rest : list bytes) :
  deserialize_list attachment = inr (chunk0 :: chunk1 :: rest) ->
  deserialize_list attachment' = inr [chunk0; chunk1] ->
  attachment_to_uattributes attachment = attachment_to_uattributes attachment'.
Proof.
  intros H H'.
  rewrite (decode_chunks _ _ H), (decode_chunks _ _ H').
  reflexivity.
Qed.

(** X8.  The buffers the decoder accepts: the first chunk is any number of
    zero bytes followed by one byte 1, the second chunk is not empty and
    parses, and the value returned is the parsed one. *)
Theorem attachment_to_uattributes_accepts
    (attachment : ZBytes) (chunks : list bytes) (uattributes : UAttributes) :
  deserialize_list attachment = inr chunks ->
  attachment_to_uattributes attachment = inr uattributes
  <-> exists n chunk1 rest,
        chunks = (repeat x00 n ++ [x01])%list :: chunk1 :: rest
        /\ chunk1 <> []
        /\ ParseFromString chunk1 = inr uattributes.
Proof.
  intros Hd. rewrite (decode_chunks _ _ Hd). split.
  - destruct chunks as [| chunk0 [| chunk1 rest]]; try discriminate.
    + destruct (_ =? _); discriminate.
    + destruct (N.eqb_spec (int_from_bytes_big chunk0) UATTRIBUTE_VERSION)
        as [Hv | Hv]; [| discriminate].
      apply version_chunk_shape in Hv as [n ->].
      destruct chunk1 as [| b chunk1]; [discriminate |].
      simpl bytes_is_empty. cbv iota.
      destruct (ParseFromString (b :: chunk1)) eqn:Hp; [discriminate |].
      intros [= <-]. exists n, (b :: chunk1), rest.
      repeat split; trivial. discriminate.
  - intros (n & chunk1 & rest & -> & Hne & Hp).
    assert (Hv : int_from_bytes_big (repeat x00 n ++ [x01])%list = 1)
      by (apply version_chunk_shape; now exists n).
    unfold UATTRIBUTE_VERSION. rewrite Hv. simpl N.eqb. cbv iota.
    destruct chunk1 as [| b chunk1]; [congruence |].
    simpl bytes_is_empty. cbv iota. now rewrite Hp.
Qed.

(** X9.  Decoding what the encoder returned is parsing what the serializer
    wrote, with two differences: attributes that serialize to no byte are
    rejected, and a parse failure comes back as an INVALID_ARGUMENT error
    that wraps it. *)
Theorem attachment_decode_after_encode
    (uattributes : UAttributes) (attachment : ZBytes) :
  deserialize_list attachment = uattributes_to_attachment uattributes ->
  attachment_to_uattributes attachment =
    match SerializeToString uattributes with
    | [] =>
        inl (conversion_failure
               (from_code_message INVALID_ARGUMENT
                  "Unable to get the UAttributes"))
    | _ :: _ =>
        match ParseFromString (SerializeToString uattributes) with
        | inl e => inl (conversion_failure e)
        | inr parsed => inr parsed
        end
    end.
Proof.
  intros Hd. rewrite encode_chunks in Hd.
  rewrite (decode_chunks _ _ Hd).
  change (int_from_bytes_big [x01] =? UATTRIBUTE_VERSION) with true.
  cbv iota.
  destruct (SerializeToString uattributes); reflexivity.
Qed.

End AttachmentExtras.

(** ** The authority in micro form *)

Lemma format_02x_reads_back (c : byte) (s : string) :
  bytes_fromhex (format_02x (Byte.to_N c) ++ s)
  = option_map (cons c) (bytes_fromhex s).
Proof. destruct c; reflexivity. Qed.

Lemma format_02x_length (c : byte) :
  String.length (format_02x (Byte.to_N c)) = 2%nat.
Proof. destruct c; reflexivity. Qed.

Lemma string_app_length (a b : string) :
  String.length (a ++ b) = (String.length a + String.length b)%nat.
Proof. induction a; simpl; congruence. Qed.

Lemma string_app_nil_r (a : string) : a ++ "" = a.
Proof. induction a; simpl; congruence. Qed.

Lemma concat_empty_cons (x : string) (xs : list string) :
  String.concat "" (x :: xs) = x ++ String.concat "" xs.
Proof.
  destruct xs as [| y ys]; simpl.
  - now rewrite string_app_nil_r.
  - reflexivity.
Qed.

(** The micro form of a byte string reads back, two digits a byte. *)
Lemma micro_form_reads_back (b : bytes) :
  let s := String.concat "" (map (fun c => format_02x (Byte.to_N c)) b) in
  bytes_fromhex s = Some b /\ String.length s = (2 * List.length b)%nat.
Proof.
  cbv zeta. induction b as [| c b [IHr IHl]].
  - split; reflexivity.
  - cbn [map]. rewrite concat_empty_cons. split.
    + now rewrite format_02x_reads_back, IHr.
    + rewrite string_app_length, format_02x_length, IHl.
      cbn [List.length]. lia.
Qed.

Section MicroFormExtras.
Context {UAuthority : Type} {A : AuthorityField UAuthority}.
Context {E : UStatusErrorText}.

Import ZenohUtils.

(** X10.  Once [uri.authority] can be read, [get_uauth_from_uuri] raises
    nothing: a false authority and a serializer that raises both come back
    as a returned [UStatus] of code INVALID_ARGUMENT (the second with the
    text of the exception appended), and only a failure to read the
    attribute itself is raised. *)
Theorem get_uauth_from_uuri_failures_are_returned (uri : UUri) :
  match authority uri with
  | inl e => get_uauth_from_uuri uri = inl e
  | inr a =>
      if authority_bool a then
        match authority_SerializeToString a with
        | inl e =>
            get_uauth_from_uuri uri =
              inr (inr {| code := INVALID_ARGUMENT;
                          message :=
                            "Unable to transform UAuthority into micro form: "
                            ++ str e |})
        | inr _ => exists s, get_uauth_from_uuri uri = inr (inl s)
        end
      else
        get_uauth_from_uuri uri =
          inr (inr {| code := INVALID_ARGUMENT;
                      message := "UAuthority is empty" |})
  end.
Proof.
  unfold get_uauth_from_uuri.
  destruct (authority uri) as [e | a] eqn:Ha; cbn; [reflexivity |].
  destruct (authority_bool a); [| reflexivity].
  cbn.
  destruct (authority_SerializeToString a) as [e | b]; cbn.
  - reflexivity.
  - eexists. reflexivity.
Qed.


End MicroFormExtras.

(** ** Concrete runs of the further properties *)

#[local] Existing Instance NameAuthority.name_authority.

Example micro_form_run :
  ZenohUtils.get_uauth_from_uuri
    {| authority_name := "Hi!"; ue_id := 1; ue_version_major := 1;
       resource_id := 0 |}
  = inr (inl "486921").
Proof. reflexivity. Qed.


Lemma classifier_single_kind_without_wildcards_witness :
  MessageFlag.RESPONSE = MessageFlag.NOTIFICATION
  \/ MessageFlag.RESPONSE = MessageFlag.REQUEST
  \/ MessageFlag.RESPONSE = MessageFlag.RESPONSE.
Proof.
  apply (@classifier_single_kind_without_wildcards up_python_UriFactory
           {| authority_name := ""; ue_id := 1; ue_version_major := 1;
              resource_id := 0x0042 |}
           {| authority_name := ""; ue_id := 2; ue_version_major := 1;
              resource_id := 0 |}
           MessageFlag.RESPONSE).
  - discriminate.
  - discriminate.
  - reflexivity.
Defined.

Lemma classifier_wildcard_rows_witness :
  ZenohUtils.get_listener_message_type (F := up_python_UriFactory)
    {| authority_name := ""; ue_id := 1; ue_version_major := 1;
       resource_id := 0x8001 |}
    (Some {| authority_name := ""; ue_id := 2; ue_version_major := 1;
             resource_id := 0xFFFF |})
  = inr (N.lor MessageFlag.PUBLISH MessageFlag.NOTIFICATION).
Proof.
  assert (H0 : @WILDCARD_RESOURCE_ID up_python_UriFactory <> 0)
    by discriminate.
  destruct (@classifier_wildcard_rows up_python_UriFactory
              {| authority_name := ""; ue_id := 1; ue_version_major := 1;
                 resource_id := 0x8001 |}
              {| authority_name := ""; ue_id := 2; ue_version_major := 1;
                 resource_id := 0xFFFF |}
              H0 eq_refl eq_refl)
    as (_ & _ & _ & _ & _ & H & _).
  apply H; reflexivity.
Defined.

Lemma empty_sink_keyed_as_absent_classified_as_notification_witness :
  ZenohUtils.get_listener_message_type (F := up_python_UriFactory)
    {| authority_name := ""; ue_id := 1; ue_version_major := 1;
       resource_id := 0x8001 |}
    (Some UUri_default)
  = inr MessageFlag.NOTIFICATION.
Proof.
  assert (H0 : @WILDCARD_RESOURCE_ID up_python_UriFactory <> 0)
    by discriminate.
  assert (H1 : 0x8001 <> @WILDCARD_RESOURCE_ID up_python_UriFactory)
    by discriminate.
  exact (proj2 (proj2
    (@empty_sink_keyed_as_absent_classified_as_notification
       up_python_UriFactory "host"
       {| authority_name := ""; ue_id := 1; ue_version_major := 1;
          resource_id := 0x8001 |}
       H0 H1 eq_refl))).
Defined.

(** An address without authority under the default "host" and an address
    that names "host" itself have the same key segment. *)
Lemma uri_to_zenoh_key_injective_witness :
  KeySpec.authority_segment "host"
    {| authority_name := ""; ue_id := 0x12; ue_version_major := 2;
       resource_id := 0x8001 |}
  = KeySpec.authority_segment "other"
      {| authority_name := "host"; ue_id := 0x12; ue_version_major := 2;
         resource_id := 0x8001 |}.
Proof.
  exact (proj1
    (@uri_to_zenoh_key_injective up_python_UriFactory "host" "other"
       {| authority_name := ""; ue_id := 0x12; ue_version_major := 2;
          resource_id := 0x8001 |}
       {| authority_name := "host"; ue_id := 0x12; ue_version_major := 2;
          resource_id := 0x8001 |}
       eq_refl)).
Defined.

Lemma attachment_to_uattributes_ignores_trailing_chunks_witness :
  ZenohUtils.attachment_to_uattributes (ZBytes := Fragment.ZBytes)
    [[x01]; [x28; x04]; [xff]; []]
  = ZenohUtils.attachment_to_uattributes (ZBytes := Fragment.ZBytes)
      [[x01]; [x28; x04]].
Proof.
  exact (@attachment_to_uattributes_ignores_trailing_chunks
           Fragment.UAttributes Fragment.UAttributes_message
           Fragment.ZBytes Fragment.ZBytes_chunks
           Fragment.status_message_text
           [[x01]; [x28; x04]; [xff]; []] [[x01]; [x28; x04]]
           [x01] [x28; x04] [[xff]; []] eq_refl eq_refl).
Defined.

(** A version chunk of three bytes, two of them zero, is accepted. *)
Lemma attachment_to_uattributes_accepts_witness :
  ZenohUtils.attachment_to_uattributes (ZBytes := Fragment.ZBytes)
    [[x00; x00; x01]; [x28; x04]]
  = inr {| Fragment.priority := UPRIORITY_CS3 |}.
Proof.
  apply (@attachment_to_uattributes_accepts
           Fragment.UAttributes Fragment.UAttributes_message
           Fragment.ZBytes Fragment.ZBytes_chunks
           Fragment.status_message_text
           [[x00; x00; x01]; [x28; x04]] [[x00; x00; x01]; [x28; x04]]
           {| Fragment.priority := UPRIORITY_CS3 |} eq_refl).
  exists 2%nat, [x28; x04], [].
  repeat split. discriminate.
Defined.

Lemma attachment_decode_after_encode_witness :
  ZenohUtils.attachment_to_uattributes (ZBytes := Fragment.ZBytes)
    [[x01]; [x28; x02]]
  = inr {| Fragment.priority := UPRIORITY_CS1 |}.
Proof.
  exact (@attachment_decode_after_encode
           Fragment.UAttributes Fragment.UAttributes_message
           Fragment.ZBytes Fragment.ZBytes_chunks
           Fragment.status_message_text
           {| Fragment.priority := UPRIORITY_CS1 |} [[x01]; [x28; x02]]
           eq_refl).
Defined.

(** ** Keys of address pairs *)

Lemma string_app_inv_head (a b c : string) : a ++ b = a ++ c -> b = c.
Proof. induction a; simpl; [trivial | intros [= H]; auto]. Qed.

Lemma field_segment_not_braces (wildcard value : N) :
  (if value =? wildcard then "*" else format_X value) <> "{}".
Proof.
  destruct (value =? wildcard); [discriminate |].
  intros H. pose proof (format_X_value value) as Hv.
  rewrite H in Hv. discriminate.
Qed.

Section KeyPairExtras.
Context {F : UriFactory}.

Import ZenohUtils.

(** The placeholder for a missing destination is never the key segment of
    an address. *)
Lemma key_segment_not_placeholder (default_authority : string) (uri : UUri) :
  uri_to_zenoh_key default_authority uri <> "{}/{}/{}/{}".
Proof.
  unfold uri_to_zenoh_key; cbv zeta.
  set (a := if String.eqb _ _ then _ else _).
  set (e := if ue_id uri =? _ then _ else _).
  set (v := if ue_version_major uri =? _ then _ else _).
  intros H.
  assert (H3 : ((a ++ "/" ++ e) ++ "/" ++ v) ++ "/"
                 ++ (if resource_id uri =? WILDCARD_RESOURCE_ID
                     then "*" else format_X (resource_id uri))
               = "{}/{}/{}" ++ "/" ++ "{}").
  { rewrite !string_app_assoc. exact H. }
  apply split_last_segment in H3 as [_ Hr].
  - now apply field_segment_not_braces in Hr.
  - apply field_segment_slash_free.
  - simpl. repeat split; discriminate.
Qed.

(** X12.  For one source, the key tells the destinations apart: two
    destinations give the same key only when both are missing (absent, or
    the empty address), or both are present with the same entity id, major
    version and resource id and the same authority once the default is
    filled in. *)
Theorem to_zenoh_key_string_tells_destinations_apart
    (default_authority : string) (src : UUri) (dst1 dst2 : option UUri) :
  to_zenoh_key_string default_authority src dst1
    = to_zenoh_key_string default_authority src dst2 ->
  ((dst1 = None \/ dst1 = Some UUri_default)
   /\ (dst2 = None \/ dst2 = Some UUri_default))
  \/ exists uri1 uri2,
       dst1 = Some uri1 /\ dst2 = Some uri2
       /\ KeySpec.authority_segment default_authority uri1
          = KeySpec.authority_segment default_authority uri2
       /\ ue_id uri1 = ue_id uri2
       /\ ue_version_major uri1 = ue_version_major uri2
       /\ resource_id uri1 = resource_id uri2.
Proof.
  unfold to_zenoh_key_string; cbv zeta. intros H.
  apply string_app_inv_head in H.
  rewrite <- !string_app_assoc in H.
  apply string_app_inv_head in H.
  assert (Hmissing : forall d : option UUri,
             match d with
             | Some u => UUri_eqb u UUri_default = true -> d = Some UUri_default
             | None => True
             end).
  { intros [u |]; [| exact I]. intros Hu.
    apply UUri_eqb_eq in Hu. now subst. }
  destruct dst1 as [u1 |], dst2 as [u2 |];
    try destruct (UUri_eqb u1 UUri_default) eqn:H1;
    try destruct (UUri_eqb u2 UUri_default) eqn:H2;
    simpl negb in H; cbv iota in H;
    try (apply UUri_eqb_eq in H1; subst u1);
    try (apply UUri_eqb_eq in H2; subst u2);
    try (left; split; auto; fail);
    try (now apply key_segment_not_placeholder in H);
    try (symmetry in H; now apply key_segment_not_placeholder in H).
  right. exists u1, u2.
  split; [reflexivity | split; [reflexivity |]].
  now apply uri_to_zenoh_key_injective.
Qed.

End KeyPairExtras.

Lemma to_zenoh_key_string_tells_destinations_apart_witness :
  (@None UUri = None \/ @None UUri = Some UUri_default)
  /\ (Some UUri_default = None \/ Some UUri_default = Some UUri_default)
  \/ exists uri1 uri2,
       None = Some uri1 /\ Some UUri_default = Some uri2
       /\ KeySpec.authority_segment "host" uri1
          = KeySpec.authority_segment "host" uri2
       /\ ue_id uri1 = ue_id uri2
       /\ ue_version_major uri1 = ue_version_major uri2
       /\ resource_id uri1 = resource_id uri2.
Proof.
  exact (@to_zenoh_key_string_tells_destinations_apart up_python_UriFactory
           "host"
           {| authority_name := ""; ue_id := 0x12; ue_version_major := 2;
              resource_id := 0x8001 |}
           None (Some UUri_default) eq_refl).
Defined.
